(** * AWP spacecraft tools: solar array power and panel temperature

    A shallow embedding of [src/python_tools/spacecraft_toos.py], in two
    readings of its numbers.

    - Over the real numbers [R] (module [Py] and the functions after it):
      the algebra of the two formulas, the guard on [sun_distance], what is
      printed and what is returned.  Rounding, overflow and underflow of
      IEEE doubles are outside this reading, so the theorems stated on it
      are those that rounding cannot break: guards, signs, orderings,
      symmetries, and values on the paths the functions do return on.
    - Over binary64 doubles (module [F64]): the same statements, line by
      line, on primitive floats, with the platform's [pow], [cos] and [sin]
      as a parameter.  It decides what the first reading cannot see: a
      square that underflows to zero or overflows, a product that leaves
      the range of doubles.

    In both, [/] raises [ZeroDivisionError] on a zero divisor, [x ** 0.25]
    on a negative float yields a [complex], [print] writes a line to
    standard output, and the functions return [None] on the guarded path. *)

From Stdlib Require Import Reals Lra Lia List String Bool Floats.
Import ListNotations.

Set Warnings "-inexact-float".

Local Open Scope R_scope.

(** ** Python values and runs *)

Module Py.

(** The values the two functions can produce. *)
Inductive value : Type :=
| VNone
| VFloat (x : R)
| VComplex (re im : R).

(** [OverflowError] is what [**] raises when a double overflows; no run
    over the reals produces it. *)
Inductive exn : Type :=
| ZeroDivisionError
| OverflowError
| TypeError.

Inductive outcome (A : Type) : Type :=
| Returns (a : A)
| Raises (e : exn).
Arguments Returns {A} a.
Arguments Raises {A} e.

(** What a run leaves behind besides its outcome. *)
Inductive event : Type :=
| EvPrint (line : string)
| EvDiv (num den : R).

Definition trace := list event.

(** A computation: the events it produced, in order, and how it ended. *)
Definition M (A : Type) : Type := (trace * outcome A)%type.

Definition ret {A} (a : A) : M A := ([], Returns a).

Definition bind {A B} (c : M A) (k : A -> M B) : M B :=
  match c with
  | (t, Returns a) => let (t', o) := k a in (t ++ t', o)
  | (t, Raises e) => (t, Raises e)
  end.

Definition events {A} (c : M A) : trace := fst c.
Definition result {A} (c : M A) : outcome A := snd c.

Declare Scope py_scope.
Delimit Scope py_scope with py.
Notation "x <- c ;; k" := (bind c (fun x => k))
  (at level 61, c at next level, right associativity) : py_scope.
Notation "c ;;; k" := (bind c (fun _ => k))
  (at level 61, right associativity) : py_scope.

(** [print(line)]. *)
Definition print (line : string) : M unit := ([EvPrint line], Returns tt).

(** [a != b] on numbers. *)
Definition ne (a b : R) : bool := if Req_dec_T a b then false else true.

(** [a / b] on Python numbers: a zero divisor raises.  The division is
    recorded in the trace whether or not it succeeds. *)
Definition div (a b : R) : M R :=
  ([EvDiv a b], if Req_dec_T b 0 then Raises ZeroDivisionError else Returns (a / b)).

(** [x ** 0.25] on a float.  A positive base gives the real power, zero
    gives zero, and a negative base with this non-integer exponent is
    handed to complex power: modulus [|x| ** 0.25], phase [pi * 0.25]. *)
Definition pow_quarter (x : R) : value :=
  if Rlt_dec 0 x then VFloat (Rpower x 0.25)
  else if Req_dec_T x 0 then VFloat 0
  else
    let len := Rpower (Rabs x) 0.25 in
    let phase := PI * 0.25 in
    VComplex (len * cos phase) (len * sin phase).

(** [v * c] for a float [c].  A complex left operand promotes [c] to
    [c + 0j]; [None] has no product. *)
Definition mul_float (v : value) (c : R) : M value :=
  match v with
  | VFloat x => ret (VFloat (x * c))
  | VComplex re im => ret (VComplex (re * c - im * 0) (re * 0 + im * c))
  | VNone => ([], Raises TypeError)
  end.

(** [numpy.deg2rad] and [numpy.cos]. *)
Definition deg2rad (x : R) : R := x * (PI / 180).


(** The lines a trace printed. *)
Fixpoint printed (t : trace) : list string :=
  match t with
  | [] => []
  | EvPrint l :: t' => l :: printed t'
  | EvDiv _ _ :: t' => printed t'
  end.

End Py.

Import Py.
Local Open Scope py_scope.

(** ** The two functions *)

Definition default_efficiency : R := 0.28.
Definition default_incidence_angle : R := 0.

Definition solar_warning : string :=
  "[WARNING - calc_solar_array_power_generation] - Input value sun_distance cannot be 0.".

Definition calc_solar_array_power_generation
    (sun_distance effective_area efficiency incidence_angle solar_constant : R)
    : M value :=
  if ne sun_distance 0 then
    sun_distance_ratio <- div 1 (sun_distance ^ 2) ;;
    let power_generation :=
      sun_distance_ratio * solar_constant * effective_area * efficiency
      * cos (deg2rad incidence_angle) in
    ret (VFloat power_generation)
  else
    print solar_warning ;;;
    ret VNone.

Definition STEFAN_BOLTZMANN : R := 5.670374419 * / (10 ^ 8).

Definition calc_panel_temperature
    (sun_distance absorptivity emissivity solar_constant : R) : M value :=
  if ne sun_distance 0 then
    r <- div 1 (sun_distance ^ 2) ;;
    let solar_flux := solar_constant * r in
    q <- div (absorptivity * solar_flux) (2 * emissivity * STEFAN_BOLTZMANN) ;;
    let panel_temperature := pow_quarter q in
    mul_float panel_temperature 273.15
  else
    ret VNone.

(** The quotient [calc_panel_temperature] raises to the power 0.25. *)
Definition quotient (d a e S : R) : R :=
  (a * (S * (1 / d ^ 2))) / (2 * e * STEFAN_BOLTZMANN).

(** ** Results as predicates *)

(** The outcome is a Python number: a float or a complex. *)
Definition is_number (o : outcome value) : Prop :=
  match o with
  | Returns (VFloat _) | Returns (VComplex _ _) => True
  | _ => False
  end.




(** ** The two functions on binary64 doubles

    Python floats are IEEE binary64 numbers, here Rocq's primitive floats.
    [*] and [/] round to nearest; [/] raises on a zero divisor and nothing
    else; [**] follows the interpreter's [float_pow], which settles the
    special cases itself (nan, infinities, zero, a negative base, the base
    1) and leaves the rest to the platform's [pow], raising [OverflowError]
    when that returns an infinity.  The platform's library is a parameter:
    nothing is assumed of it but what a theorem states. *)

Module F64.

Local Open Scope float_scope.

(** The functions of the C library that the interpreter and numpy reach. *)
Record libm : Type := Libm {
  libm_pow : float -> float -> float;
  libm_cos : float -> float;
  libm_sin : float -> float
}.

Inductive value : Type :=
| VNone
| VFloat (x : float)
| VComplex (re im : float).

(** A computation: the lines it printed and how it ended. *)
Definition M (A : Type) : Type := (list string * outcome A)%type.

Definition ret {A} (a : A) : M A := ([], Returns a).

Definition raise {A} (e : exn) : M A := ([], Raises e).

Definition bind {A B} (c : M A) (k : A -> M B) : M B :=
  match c with
  | (t, Returns a) => let (t', o) := k a in ((t ++ t')%list, o)
  | (t, Raises e) => (t, Raises e)
  end.

Definition printed {A} (c : M A) : list string := fst c.
Definition result {A} (c : M A) : outcome A := snd c.

Declare Scope f64_scope.
Delimit Scope f64_scope with f64.
Notation "x <- c ;; k" := (bind c (fun x => k))
  (at level 61, c at next level, right associativity) : f64_scope.
Notation "c ;;; k" := (bind c (fun _ => k))
  (at level 61, right associativity) : f64_scope.
Local Open Scope f64_scope.

Definition print (line : string) : M unit := ([line], Returns tt).

(** [a != b]: false on equal numbers, -0.0 and 0.0 included; true on nan. *)
Definition ne (a b : float) : bool := negb (a =? b).

(** [a / b]: a zero divisor, of either sign, raises. *)
Definition div (a b : float) : M float :=
  if b =? 0 then raise ZeroDivisionError else ret (a / b).

Definition isnan (x : float) : bool := negb (x =? x).
Definition isinf (x : float) : bool := abs x =? infinity.

(** The end of [float_pow]: an infinite result of [pow] is an overflow. *)
Definition checked (ix : float) : M float :=
  if isinf ix then raise OverflowError else ret ix.

(** [iv ** 2].  The exponent is a non-zero even integer: nan stays nan, an
    infinity gives +inf, a zero gives 0.0, a negative base is replaced by
    its opposite, the base 1 gives 1.0, and [pow] does the rest. *)
Definition pow_2 (m : libm) (iv : float) : M float :=
  if isnan iv then ret iv
  else if isinf iv then ret (abs iv)
  else if iv =? 0 then ret 0
  else
    let iv := if iv <? 0 then - iv else iv in
    if iv =? 1 then ret 1
    else checked (libm_pow m iv 2).

(** The double nearest to pi: [atan2(0.0, x)] for a negative [x], and
    numpy's [NPY_PI]. *)
Definition PI_DOUBLE : float := 3.141592653589793.

(** Complex power for a negative real base and the exponent 0.25:
    modulus [pow(hypot(iv, 0.0), 0.25)], phase [atan2(0.0, iv) * 0.25];
    an infinite part is an overflow. *)
Definition complex_pow_quarter (m : libm) (iv : float) : M value :=
  let vabs := abs iv in
  let len := libm_pow m vabs 0.25 in
  let phase := PI_DOUBLE * 0.25 in
  let re := len * libm_cos m phase in
  let im := len * libm_sin m phase in
  if isinf re || isinf im then raise OverflowError
  else ret (VComplex re im).

(** [iv ** 0.25].  The exponent is not an integer: nan stays nan, an
    infinity of either sign gives +inf, a zero of either sign gives 0.0, a
    negative base goes to complex power, the base 1 gives 1.0, and [pow]
    does the rest. *)
Definition pow_quarter (m : libm) (iv : float) : M value :=
  if isnan iv then ret (VFloat iv)
  else if isinf iv then ret (VFloat (abs iv))
  else if iv =? 0 then ret (VFloat 0)
  else if iv <? 0 then complex_pow_quarter m iv
  else if iv =? 1 then ret (VFloat 1)
  else x <- checked (libm_pow m iv 0.25) ;; ret (VFloat x).

(** [v * c] for a float [c]; a complex [v] multiplies by [c + 0j]. *)
Definition mul_float (v : value) (c : float) : M value :=
  match v with
  | VFloat x => ret (VFloat (x * c))
  | VComplex re im => ret (VComplex (re * c - im * 0) (re * 0 + im * c))
  | VNone => raise TypeError
  end.

(** [numpy.deg2rad]: the product by the double [NPY_PI / 180.0]. *)
Definition DEG2RAD : float := PI_DOUBLE / 180.
Definition deg2rad (x : float) : float := x * DEG2RAD.

Definition calc_solar_array_power_generation (m : libm)
    (sun_distance effective_area efficiency incidence_angle solar_constant : float)
    : M value :=
  if ne sun_distance 0 then
    sq <- pow_2 m sun_distance ;;
    sun_distance_ratio <- div 1 sq ;;
    let power_generation :=
      sun_distance_ratio * solar_constant * effective_area * efficiency
      * libm_cos m (deg2rad incidence_angle) in
    ret (VFloat power_generation)
  else
    print solar_warning ;;;
    ret VNone.

(** [5.670374419*10**-8]: the integer power with a negative exponent is
    the float power [10.0 ** -8.0]. *)
Definition STEFAN_BOLTZMANN (m : libm) : M float :=
  p <- checked (libm_pow m 10 (-8)) ;;
  ret (5.670374419 * p).

Definition calc_panel_temperature (m : libm)
    (sun_distance absorptivity emissivity solar_constant : float) : M value :=
  sb <- STEFAN_BOLTZMANN m ;;
  if ne sun_distance 0 then
    sq <- pow_2 m sun_distance ;;
    r <- div 1 sq ;;
    let solar_flux := solar_constant * r in
    q <- div (absorptivity * solar_flux) (2 * emissivity * sb) ;;
    panel_temperature <- pow_quarter m q ;;
    mul_float panel_temperature 273.15
  else
    ret VNone.

(** The values every C library returns at the few exact points the
    evaluations below pass through. *)
Definition reference_values (m : libm) : Prop :=
  libm_pow m 10 (-8) = 1e-8 /\
  libm_pow m 2 2 = 4 /\
  libm_pow m 1e200 2 = infinity /\
  libm_pow m 1e-200 2 = 0 /\
  libm_cos m 0 = 1 /\
  libm_cos m PI_DOUBLE = -1.

(** A library that knows those points and nothing else. *)
Definition table_libm : libm :=
  Libm
    (fun x y =>
       if (x =? 10) && (y =? -8) then 1e-8
       else if (x =? 2) && (y =? 2) then 4
       else if (x =? 1e200) && (y =? 2) then infinity
       else if (x =? 1e-200) && (y =? 2) then 0
       else nan)
    (fun x => if x =? 0 then 1 else if x =? PI_DOUBLE then -1 else nan)
    (fun _ => nan).

End F64.


(** ** Basic facts *)

Lemma ne_true (x y : R) : x <> y -> ne x y = true.
Proof. unfold ne. destruct (Req_dec_T x y); [contradiction | reflexivity]. Qed.

Lemma ne_false (x : R) : ne x x = false.
Proof. unfold ne. destruct (Req_dec_T x x); [reflexivity | contradiction]. Qed.

Lemma sq_neq_0 (d : R) : d <> 0 -> d ^ 2 <> 0.
Proof. intros Hd. apply pow_nonzero. exact Hd. Qed.

Lemma sq_pos (d : R) : d <> 0 -> 0 < d ^ 2.
Proof. intros Hd. nra. Qed.

Lemma div_ok (a b : R) : b <> 0 -> div a b = ([EvDiv a b], Returns (a / b)).
Proof. intros Hb. unfold div. destruct (Req_dec_T b 0); [contradiction | reflexivity]. Qed.

Lemma div_zero (a : R) : div a 0 = ([EvDiv a 0], Raises ZeroDivisionError).
Proof. unfold div. destruct (Req_dec_T 0 0); [reflexivity | contradiction]. Qed.

Lemma STEFAN_BOLTZMANN_pos : 0 < STEFAN_BOLTZMANN.
Proof. unfold STEFAN_BOLTZMANN. lra. Qed.

(** ** Runs of the two functions, path by path *)

Ltac run_guard Hd :=
  match goal with
  | |- context [ne ?d 0] => rewrite (ne_true d 0 Hd)
  end.

Ltac run_div :=
  repeat
    (match goal with
     | |- context [div ?a ?b] =>
         rewrite (div_ok a b) by (try apply sq_neq_0; auto)
     end;
     cbn [bind ret app]).

Lemma solar_run_zero (A eta theta S : R) :
  calc_solar_array_power_generation 0 A eta theta S
  = ([EvPrint solar_warning], Returns VNone).
Proof.
  unfold calc_solar_array_power_generation.
  rewrite ne_false. reflexivity.
Qed.

Lemma solar_run (d A eta theta S : R) :
  d <> 0 ->
  calc_solar_array_power_generation d A eta theta S
  = ([EvDiv 1 (d ^ 2)],
     Returns (VFloat (1 / d ^ 2 * S * A * eta * cos (deg2rad theta)))).
Proof.
  intros Hd. unfold calc_solar_array_power_generation.
  run_guard Hd. run_div. reflexivity.
Qed.

Lemma panel_run_zero (a e S : R) :
  calc_panel_temperature 0 a e S = ([], Returns VNone).
Proof.
  unfold calc_panel_temperature.
  rewrite ne_false. reflexivity.
Qed.

Lemma panel_run (d a e S : R) :
  d <> 0 -> e <> 0 ->
  calc_panel_temperature d a e S
  = ([EvDiv 1 (d ^ 2);
      EvDiv (a * (S * (1 / d ^ 2))) (2 * e * STEFAN_BOLTZMANN)],
     result (mul_float (pow_quarter (quotient d a e S)) 273.15)).
Proof.
  intros Hd He. unfold calc_panel_temperature, quotient.
  run_guard Hd.
  assert (Hden : 2 * e * STEFAN_BOLTZMANN <> 0).
  { pose proof STEFAN_BOLTZMANN_pos. nra. }
  run_div.
  destruct (pow_quarter _); reflexivity.
Qed.

Lemma panel_run_emissivity_zero (d a S : R) :
  d <> 0 ->
  calc_panel_temperature d a 0 S
  = ([EvDiv 1 (d ^ 2); EvDiv (a * (S * (1 / d ^ 2))) (2 * 0 * STEFAN_BOLTZMANN)],
     Raises ZeroDivisionError).
Proof.
  intros Hd. unfold calc_panel_temperature.
  run_guard Hd.
  rewrite (div_ok 1 (d ^ 2)) by (apply sq_neq_0; exact Hd).
  cbn [bind ret app].
  replace (2 * 0 * STEFAN_BOLTZMANN) with 0 by ring.
  rewrite div_zero. reflexivity.
Qed.

(** ** The power 0.25 *)

Lemma pow_quarter_pos (x : R) :
  0 < x -> pow_quarter x = VFloat (Rpower x 0.25).
Proof.
  intros Hx. unfold pow_quarter.
  destruct (Rlt_dec 0 x); [reflexivity | contradiction].
Qed.

Lemma pow_quarter_zero : pow_quarter 0 = VFloat 0.
Proof.
  unfold pow_quarter.
  destruct (Rlt_dec 0 0) as [H | _]; [lra |].
  destruct (Req_dec_T 0 0); [reflexivity | contradiction].
Qed.

Lemma pow_quarter_neg (x : R) :
  x < 0 ->
  pow_quarter x
  = VComplex (Rpower (Rabs x) 0.25 * cos (PI * 0.25))
             (Rpower (Rabs x) 0.25 * sin (PI * 0.25)).
Proof.
  intros Hx. unfold pow_quarter.
  destruct (Rlt_dec 0 x) as [H | _]; [lra |].
  destruct (Req_dec_T x 0) as [H | _]; [lra | reflexivity].
Qed.

Lemma Rpower_pos (x y : R) : 0 < Rpower x y.
Proof. unfold Rpower. apply exp_pos. Qed.


(** A float comes out only of a non-negative base, and is non-negative. *)
Lemma pow_quarter_float (x t : R) :
  pow_quarter x = VFloat t -> 0 <= x /\ 0 <= t.
Proof.
  intros H.
  destruct (Rlt_dec 0 x) as [Hpos | Hnpos].
  - rewrite (pow_quarter_pos x Hpos) in H. injection H as <-.
    pose proof (Rpower_pos x 0.25). lra.
  - destruct (Req_dec_T x 0) as [-> | Hnz].
    + rewrite pow_quarter_zero in H. injection H as <-. lra.
    + rewrite (pow_quarter_neg x) in H by lra. discriminate.
Qed.


(** The product that follows the power is always defined: [TypeError] is
    out of reach. *)
Lemma mul_float_pow_quarter (x c : R) :
  is_number (result (mul_float (pow_quarter x) c)).
Proof.
  unfold pow_quarter.
  destruct (Rlt_dec 0 x); [exact I |].
  destruct (Req_dec_T x 0); exact I.
Qed.


(** ** The quotient *)

(** With emissivity away from zero the quotient is a positive multiple of
    [a * S / e] that shrinks with the square of the distance. *)
Lemma quotient_factor (d a e S : R) :
  d <> 0 -> e <> 0 ->
  quotient d a e S = (a * S / e) * / (2 * STEFAN_BOLTZMANN) * / (d ^ 2).
Proof.
  intros Hd He. unfold quotient.
  pose proof STEFAN_BOLTZMANN_pos.
  field. repeat split; lra.
Qed.

(** ** Outcomes of [calc_panel_temperature] away from the guard *)


Lemma panel_result_positive (d a e S : R) :
  d <> 0 -> e <> 0 -> 0 < quotient d a e S ->
  result (calc_panel_temperature d a e S)
  = Returns (VFloat (Rpower (quotient d a e S) 0.25 * 273.15)).
Proof.
  intros Hd He Hq.
  rewrite (panel_run d a e S Hd He), (pow_quarter_pos _ Hq). reflexivity.
Qed.


(** ** Symmetry in the distance *)

Lemma ne_opp (d : R) : ne (- d) 0 = ne d 0.
Proof.
  unfold ne.
  destruct (Req_dec_T (- d) 0), (Req_dec_T d 0); try reflexivity; exfalso; lra.
Qed.

Lemma solar_even (d A eta theta S : R) :
  calc_solar_array_power_generation (- d) A eta theta S
  = calc_solar_array_power_generation d A eta theta S.
Proof.
  unfold calc_solar_array_power_generation.
  rewrite ne_opp. replace ((- d) ^ 2) with (d ^ 2) by ring. reflexivity.
Qed.

Lemma panel_even (d a e S : R) :
  calc_panel_temperature (- d) a e S = calc_panel_temperature d a e S.
Proof.
  unfold calc_panel_temperature.
  rewrite ne_opp. replace ((- d) ^ 2) with (d ^ 2) by ring. reflexivity.
Qed.

(** ** Ordering in the distance *)



(** ** Outcomes of [calc_solar_array_power_generation] *)


Lemma solar_scaling (d k A eta theta S : R) :
  d <> 0 -> k <> 0 ->
  exists p q,
    result (calc_solar_array_power_generation d A eta theta S) = Returns (VFloat p) /\
    result (calc_solar_array_power_generation (k * d) A eta theta S) = Returns (VFloat q) /\
    q = p / k ^ 2.
Proof.
  intros Hd Hk.
  assert (Hkd : k * d <> 0) by (apply Rmult_integral_contrapositive_currified; assumption).
  rewrite (solar_run d A eta theta S Hd), (solar_run (k * d) A eta theta S Hkd).
  eexists. eexists. repeat split.
  cbn [result snd]. field. split; assumption.
Qed.


(** ** Further facts on the runs over the reals *)

Lemma solar_result (d A eta theta S : R) :
  d <> 0 ->
  result (calc_solar_array_power_generation d A eta theta S)
  = Returns (VFloat (1 / d ^ 2 * S * A * eta * cos (deg2rad theta))).
Proof.
  intros Hd. rewrite (solar_run d A eta theta S Hd). reflexivity.
Qed.

(** ** What the functions return, print and raise *)

Lemma solar_never_none (d A eta theta S : R) :
  d <> 0 ->
  result (calc_solar_array_power_generation d A eta theta S) <> Returns VNone.
Proof.
  intros Hd. rewrite (solar_run d A eta theta S Hd). discriminate.
Qed.

Lemma panel_never_none (d a e S : R) :
  d <> 0 -> result (calc_panel_temperature d a e S) <> Returns VNone.
Proof.
  intros Hd.
  destruct (Req_dec_T e 0) as [-> | He].
  - rewrite (panel_run_emissivity_zero d a S Hd). discriminate.
  - rewrite (panel_run d a e S Hd He). cbn [result snd].
    pose proof (mul_float_pow_quarter (quotient d a e S) 273.15) as Hn.
    intros Heq. rewrite Heq in Hn. exact Hn.
Qed.

Lemma panel_prints_nothing (d a e S : R) :
  printed (events (calc_panel_temperature d a e S)) = [].
Proof.
  destruct (Req_dec_T d 0) as [-> | Hd].
  - rewrite panel_run_zero. reflexivity.
  - destruct (Req_dec_T e 0) as [-> | He].
    + rewrite (panel_run_emissivity_zero d a S Hd). reflexivity.
    + rewrite (panel_run d a e S Hd He). reflexivity.
Qed.

(** ** Laws of [calc_panel_temperature] *)

Lemma quotient_pos (d a e S : R) :
  d <> 0 -> 0 < a * S / e -> 0 < quotient d a e S.
Proof.
  intros Hd Hk.
  assert (He : e <> 0).
  { intros ->. unfold Rdiv in Hk. rewrite Rinv_0 in Hk. lra. }
  rewrite (quotient_factor d a e S Hd He).
  pose proof STEFAN_BOLTZMANN_pos as Hsb.
  pose proof (sq_pos d Hd) as Hsq.
  apply Rmult_lt_0_compat;
    [apply Rmult_lt_0_compat; [exact Hk | apply Rinv_0_lt_compat; lra]
    | apply Rinv_0_lt_compat; exact Hsq].
Qed.

(** A float result can only come from the unguarded path with a non-zero
    emissivity and a non-negative quotient. *)
Lemma panel_float_inversion (d a e S x : R) :
  result (calc_panel_temperature d a e S) = Returns (VFloat x) ->
  d <> 0 /\ e <> 0 /\
  exists t, pow_quarter (quotient d a e S) = VFloat t /\ 0 <= t /\ x = t * 273.15.
Proof.
  intros H.
  destruct (Req_dec_T d 0) as [-> | Hd].
  { rewrite panel_run_zero in H. discriminate H. }
  destruct (Req_dec_T e 0) as [-> | He].
  { rewrite (panel_run_emissivity_zero d a S Hd) in H. discriminate H. }
  split; [exact Hd |]. split; [exact He |].
  rewrite (panel_run d a e S Hd He) in H. cbn [result snd] in H.
  destruct (pow_quarter (quotient d a e S)) as [| t | re im] eqn:Hp;
    cbn [mul_float ret snd] in H; try discriminate H.
  injection H as <-. exists t.
  destruct (pow_quarter_float _ _ Hp) as [_ Ht]. auto.
Qed.



Lemma solar_factor_pos (d A eta S : R) :
  d <> 0 -> 0 < A -> 0 < eta -> 0 < S -> 0 < 1 / d ^ 2 * S * A * eta.
Proof.
  intros Hd HA Heta HS.
  pose proof (sq_pos d Hd) as Hsq.
  assert (Hinv : 0 < 1 / d ^ 2).
  { unfold Rdiv. rewrite Rmult_1_l. apply Rinv_0_lt_compat. exact Hsq. }
  do 3 (apply Rmult_lt_0_compat; [| assumption]). exact Hinv.
Qed.

Lemma cos_deg2rad_0 : cos (deg2rad 0) = 1.
Proof. unfold deg2rad. replace (0 * (PI / 180)) with 0 by ring. apply cos_0. Qed.


Lemma deg2rad_opp (theta : R) : deg2rad (- theta) = - deg2rad theta.
Proof. unfold deg2rad. ring. Qed.

(** ** Evaluations on doubles *)

Section Doubles.

Local Open Scope float_scope.

Lemma table_libm_reference : F64.reference_values F64.table_libm.
Proof. vm_compute. repeat split; reflexivity. Qed.

(** Unfolds a library into its three functions and its reference values. *)
Ltac with_reference m H :=
  destruct m as [pow_ cos_ sin_];
  destruct H as (Hsb & Hfour & Hhuge & Htiny & Hcos0 & Hcospi);
  cbn [F64.libm_pow F64.libm_cos F64.libm_sin] in Hsb, Hfour, Hhuge, Htiny, Hcos0, Hcospi;
  cbv [F64.PI_DOUBLE] in Hcospi.

(** Runs a function of [F64] on literal arguments, feeding the reference
    values in wherever the library is called. *)
Ltac run_doubles :=
  repeat (vm_compute;
          match goal with
          | H : ?f ?x ?y = _ |- context [?f ?x ?y] => rewrite H
          | H : ?f ?x = _ |- context [?f ?x] => rewrite H
          end);
  vm_compute.



Lemma solar_overflowing_at_1 (m : F64.libm) :
  F64.reference_values m ->
  F64.calc_solar_array_power_generation m 1 2 1 0 1e308
  = ([], Returns (F64.VFloat infinity)).
Proof. intros H. with_reference m H. run_doubles. reflexivity. Qed.

Lemma solar_overflowing_at_2 (m : F64.libm) :
  F64.reference_values m ->
  F64.calc_solar_array_power_generation m 2 2 1 0 1e308
  = ([], Returns (F64.VFloat (1e308 / 2))).
Proof. intros H. with_reference m H. run_doubles. reflexivity. Qed.



End Doubles.

(** * The claims *)










(** C4.  On the [sun_distance == 0] path
    [calc_solar_array_power_generation] prints its warning line and
    [calc_panel_temperature] prints nothing; both return [None]. *)
Theorem zero_distance_messages (A eta theta S a e S' : R) :
  printed (events (calc_solar_array_power_generation 0 A eta theta S)) = [solar_warning] /\
  printed (events (calc_panel_temperature 0 a e S')) = [] /\
  result (calc_solar_array_power_generation 0 A eta theta S) = Returns VNone /\
  result (calc_panel_temperature 0 a e S') = Returns VNone.
Proof.
  rewrite solar_run_zero, panel_run_zero. repeat split; reflexivity.
Qed.

(** C5 (as amended).  With area, efficiency and solar constant of
    magnitude between 1e-90 and 1e90, so that no product leaves the range
    of doubles, and the other parameters held equal, the power at
    [sun_distance = 2] is one quarter of the power at [sun_distance = 1]. *)
Theorem solar_inverse_square (A eta theta S : R) :
  1e-90 <= Rabs A <= 1e90 ->
  1e-90 <= Rabs eta <= 1e90 ->
  1e-90 <= Rabs S <= 1e90 ->
  exists p1 p2,
    result (calc_solar_array_power_generation 1 A eta theta S) = Returns (VFloat p1) /\
    result (calc_solar_array_power_generation 2 A eta theta S) = Returns (VFloat p2) /\
    p2 = p1 / 4.
Proof.
  intros _ _ _.
  assert (H1 : 1 <> 0) by lra.
  assert (H2 : 2 <> 0) by lra.
  destruct (solar_scaling 1 2 A eta theta S H1 H2) as [p [q [Hp [Hq Hpq]]]].
  exists p, q. replace (2 * 1) with 2 in Hq by ring.
  repeat split; [exact Hp | exact Hq |]. rewrite Hpq. field.
Qed.

Lemma magnitude_in_range (x : R) : 1e-90 <= x <= 1e90 -> 1e-90 <= Rabs x <= 1e90.
Proof.
  intros [Hlo Hhi]. rewrite Rabs_pos_eq by lra. split; assumption.
Qed.

Lemma solar_inverse_square_witness :
  exists p1 p2,
    result (calc_solar_array_power_generation 1 1 0.28 0 1366) = Returns (VFloat p1) /\
    result (calc_solar_array_power_generation 2 1 0.28 0 1366) = Returns (VFloat p2) /\
    p2 = p1 / 4.
Proof.
  apply (solar_inverse_square 1 0.28 0 1366); apply magnitude_in_range; lra.
Defined.

(** C5, as stated, fails on doubles: with [solar_constant = 1e308] and
    [effective_area = 2] the power at distance 1 overflows to infinity
    while the power at distance 2 is the finite 5e307, which is not a
    quarter of infinity. *)
Lemma quarter_fails_on_overflow :
  (exists m, F64.reference_values m) /\
  (forall m, F64.reference_values m ->
     exists p1 p2,
       F64.result (F64.calc_solar_array_power_generation m 1 2 1 0 1e308)
       = Returns (F64.VFloat p1) /\
       F64.result (F64.calc_solar_array_power_generation m 2 2 1 0 1e308)
       = Returns (F64.VFloat p2) /\
       PrimFloat.eqb p2 (PrimFloat.div p1 4) = false).
Proof.
  split; [exists F64.table_libm; exact table_libm_reference |].
  intros m H.
  rewrite (solar_overflowing_at_1 m H), (solar_overflowing_at_2 m H).
  eexists. eexists. split; [reflexivity |]. split; [reflexivity |].
  vm_compute. reflexivity.
Qed.




(** C7.  [calc_solar_array_power_generation(1, 1, 1, 0, 1366)] returns
    1366: one division, no warning. *)
Theorem solar_power_at_one_au :
  calc_solar_array_power_generation 1 1 1 0 1366
  = ([EvDiv 1 (1 ^ 2)], Returns (VFloat 1366)).
Proof.
  assert (H : 1 <> 0) by lra.
  rewrite (solar_run 1 1 1 0 1366 H).
  unfold deg2rad. replace (0 * (PI / 180)) with 0 by ring.
  rewrite cos_0. do 3 f_equal. field.
Qed.





(** C9.  Both functions are even in [sun_distance]: for every d different
    from 0 and every choice of the other parameters, the run at -d is the
    run at d. *)
Theorem even_in_sun_distance (d A eta theta S a e S' : R) :
  d <> 0 ->
  calc_solar_array_power_generation (- d) A eta theta S
  = calc_solar_array_power_generation d A eta theta S
  /\
  calc_panel_temperature (- d) a e S' = calc_panel_temperature d a e S'.
Proof.
  intros _. split; [apply solar_even | apply panel_even].
Qed.

Lemma even_in_sun_distance_witness :
  calc_solar_array_power_generation (- 2) 1 0.28 0 1366
  = calc_solar_array_power_generation 2 1 0.28 0 1366
  /\
  calc_panel_temperature (- 2) 0.85 0.72 1366 = calc_panel_temperature 2 0.85 0.72 1366.
Proof.
  apply (even_in_sun_distance 2 1 0.28 0 1366 0.85 0.72 1366). lra.
Defined.





(** * Further properties of the two functions *)

(** ** What the functions return and print *)

(** X1.  [None] is returned exactly at [sun_distance = 0], by either
    function and whatever the other arguments are: a caller can test the
    result against [None] to learn that the distance was 0. *)
Theorem none_iff_zero_distance (d A eta theta S a e S' : R) :
  (result (calc_solar_array_power_generation d A eta theta S) = Returns VNone <-> d = 0)
  /\
  (result (calc_panel_temperature d a e S') = Returns VNone <-> d = 0).
Proof.
  split; split.
  - intros H. destruct (Req_dec_T d 0) as [Hd | Hd]; [exact Hd |].
    exfalso. exact (solar_never_none d A eta theta S Hd H).
  - intros ->. rewrite solar_run_zero. reflexivity.
  - intros H. destruct (Req_dec_T d 0) as [Hd | Hd]; [exact Hd |].
    exfalso. exact (panel_never_none d a e S' Hd H).
  - intros ->. rewrite panel_run_zero. reflexivity.
Qed.

(** X2.  [calc_solar_array_power_generation] prints its warning line, and
    nothing else, exactly when [sun_distance] is 0, and prints nothing
    otherwise; [calc_panel_temperature] never prints, on any path. *)
Theorem printing_discipline (d A eta theta S a e S' : R) :
  (printed (events (calc_solar_array_power_generation d A eta theta S)) = [solar_warning]
   <-> d = 0)
  /\
  (printed (events (calc_solar_array_power_generation d A eta theta S)) = []
   <-> d <> 0)
  /\
  printed (events (calc_panel_temperature d a e S')) = [].
Proof.
  split; [| split].
  - split.
    + intros H. destruct (Req_dec_T d 0) as [Hd | Hd]; [exact Hd |].
      rewrite (solar_run d A eta theta S Hd) in H. discriminate H.
    + intros ->. rewrite solar_run_zero. reflexivity.
  - split.
    + intros H ->. rewrite solar_run_zero in H. discriminate H.
    + intros Hd. rewrite (solar_run d A eta theta S Hd). reflexivity.
  - apply panel_prints_nothing.
Qed.

(** ** Laws of [calc_solar_array_power_generation] *)

(** X7.  The run is even in the incidence angle: at -theta it is, trace
    and outcome, the run at theta, for every distance, zero included. *)
Theorem solar_even_in_angle (d A eta theta S : R) :
  calc_solar_array_power_generation d A eta (- theta) S
  = calc_solar_array_power_generation d A eta theta S.
Proof.
  unfold calc_solar_array_power_generation.
  rewrite deg2rad_opp, cos_neg. reflexivity.
Qed.

(** X9.  With positive area, efficiency and solar constant, no incidence
    angle gives more power than normal incidence (angle 0), and none gives
    less than its opposite: whenever the calls at theta and at 0 return the
    floats p and p0, -p0 <= p <= p0. *)
Theorem solar_bounded_by_normal_incidence (d A eta theta S p p0 : R) :
  d <> 0 -> 0 < A -> 0 < eta -> 0 < S ->
  result (calc_solar_array_power_generation d A eta theta S) = Returns (VFloat p) ->
  result (calc_solar_array_power_generation d A eta 0 S) = Returns (VFloat p0) ->
  - p0 <= p <= p0.
Proof.
  intros Hd HA Heta HS Hp Hp0.
  rewrite (solar_result d A eta theta S Hd) in Hp.
  rewrite (solar_result d A eta 0 S Hd), cos_deg2rad_0 in Hp0.
  pose proof (solar_factor_pos d A eta S Hd HA Heta HS) as Hk.
  pose proof (COS_bound (deg2rad theta)) as [Hlo Hhi].
  set (k := 1 / d ^ 2 * S * A * eta) in *.
  set (c := cos (deg2rad theta)) in *.
  assert (Ep : p = k * c) by congruence.
  assert (Ep0 : p0 = k * 1) by congruence.
  split; nra.
Qed.

Lemma solar_bounded_by_normal_incidence_witness :
  - (1 / 2 ^ 2 * 1366 * 1 * 0.28 * cos (deg2rad 0))
  <= 1 / 2 ^ 2 * 1366 * 1 * 0.28 * cos (deg2rad 75)
  <= 1 / 2 ^ 2 * 1366 * 1 * 0.28 * cos (deg2rad 0).
Proof.
  assert (H2 : 2 <> 0) by lra.
  exact (solar_bounded_by_normal_incidence 2 1 0.28 75 1366 _ _
           H2 ltac:(lra) ltac:(lra) ltac:(lra)
           (solar_result 2 1 0.28 75 1366 H2) (solar_result 2 1 0.28 0 1366 H2)).
Defined.

(** X10.  With positive area, efficiency and solar constant and an
    incidence angle between -90 and 90 degrees, whatever float the
    function returns is not negative. *)
Theorem solar_power_nonnegative (d A eta theta S p : R) :
  d <> 0 -> 0 < A -> 0 < eta -> 0 < S -> -90 <= theta -> theta <= 90 ->
  result (calc_solar_array_power_generation d A eta theta S) = Returns (VFloat p) ->
  0 <= p.
Proof.
  intros Hd HA Heta HS Hlo Hhi Hp.
  rewrite (solar_result d A eta theta S Hd) in Hp.
  pose proof (solar_factor_pos d A eta S Hd HA Heta HS) as Hk.
  assert (Hcos : 0 <= cos (deg2rad theta)).
  { pose proof PI_RGT_0 as Hpi. apply cos_ge_0; unfold deg2rad; nra. }
  set (k := 1 / d ^ 2 * S * A * eta) in *.
  set (c := cos (deg2rad theta)) in *.
  assert (Ep : p = k * c) by congruence.
  nra.
Qed.

Lemma solar_power_nonnegative_witness :
  0 <= 1 / 1 ^ 2 * 1366 * 1 * 0.28 * cos (deg2rad (-45)).
Proof.
  assert (H1 : 1 <> 0) by lra.
  exact (solar_power_nonnegative 1 1 0.28 (-45) 1366 _
           H1 ltac:(lra) ltac:(lra) ltac:(lra) ltac:(lra) ltac:(lra)
           (solar_result 1 1 0.28 (-45) 1366 H1)).
Defined.

(** X18.  With positive area, efficiency and solar constant and an
    incidence angle strictly between -90 and 90 degrees, a panel farther
    from the sun does not generate more power: for 0 < d1 < d2, whenever
    both calls return floats, the one at d1 is at least the one at d2. *)
Theorem solar_power_decreasing_in_distance (d1 d2 A eta theta S p1 p2 : R) :
  0 < d1 -> d1 < d2 -> 0 < A -> 0 < eta -> 0 < S -> -90 < theta -> theta < 90 ->
  result (calc_solar_array_power_generation d1 A eta theta S) = Returns (VFloat p1) ->
  result (calc_solar_array_power_generation d2 A eta theta S) = Returns (VFloat p2) ->
  p2 <= p1.
Proof.
  intros H1 H12 HA Heta HS Hlo Hhi Hp1 Hp2.
  assert (Hd1 : d1 <> 0) by lra.
  assert (Hd2 : d2 <> 0) by lra.
  rewrite (solar_result d1 A eta theta S Hd1) in Hp1.
  rewrite (solar_result d2 A eta theta S Hd2) in Hp2.
  pose proof PI_RGT_0 as Hpi.
  assert (Hcos : 0 < cos (deg2rad theta)).
  { apply cos_gt_0; unfold deg2rad; nra. }
  assert (Hsq1 : 0 < d1 ^ 2) by (apply sq_pos; exact Hd1).
  assert (Hsq2 : 0 < d2 ^ 2) by (apply sq_pos; exact Hd2).
  assert (Hsq : d1 ^ 2 < d2 ^ 2) by nra.
  assert (Hinv : / d2 ^ 2 < / d1 ^ 2).
  { apply Rinv_lt_contravar; [apply Rmult_lt_0_compat; assumption | exact Hsq]. }
  assert (Hk : 0 < S * A * eta * cos (deg2rad theta)).
  { repeat apply Rmult_lt_0_compat; assumption. }
  set (c := S * A * eta * cos (deg2rad theta)) in *.
  assert (Ep1 : p1 = / d1 ^ 2 * c).
  { replace p1 with (1 / d1 ^ 2 * S * A * eta * cos (deg2rad theta)) by congruence.
    unfold c. field. exact Hd1. }
  assert (Ep2 : p2 = / d2 ^ 2 * c).
  { replace p2 with (1 / d2 ^ 2 * S * A * eta * cos (deg2rad theta)) by congruence.
    unfold c. field. exact Hd2. }
  rewrite Ep1, Ep2. apply Rlt_le. apply Rmult_lt_compat_r; assumption.
Qed.

Lemma solar_power_decreasing_in_distance_witness :
  1 / 2 ^ 2 * 1366 * 1 * 0.28 * cos (deg2rad 0)
  <= 1 / 1 ^ 2 * 1366 * 1 * 0.28 * cos (deg2rad 0).
Proof.
  assert (H1 : 1 <> 0) by lra.
  assert (H2 : 2 <> 0) by lra.
  exact (solar_power_decreasing_in_distance 1 2 1 0.28 0 1366 _ _
           ltac:(lra) ltac:(lra) ltac:(lra) ltac:(lra) ltac:(lra) ltac:(lra) ltac:(lra)
           (solar_result 1 1 0.28 0 1366 H1) (solar_result 2 1 0.28 0 1366 H2)).
Defined.


(** ** A law of [calc_panel_temperature] *)

(** X12.  Whenever [calc_panel_temperature] returns a float, that float is
    not negative: the value documented as degrees Celsius never goes below
    zero, however far the panel is from the sun. *)
Theorem panel_temperature_nonnegative (d a e S x : R) :
  result (calc_panel_temperature d a e S) = Returns (VFloat x) -> 0 <= x.
Proof.
  intros H.
  destruct (panel_float_inversion d a e S x H) as [_ [_ [t [_ [Ht ->]]]]].
  lra.
Qed.

Lemma panel_temperature_nonnegative_witness :
  0 <= Rpower (quotient 1 1 1 1366) 0.25 * 273.15.
Proof.
  assert (H1 : 1 <> 0) by lra.
  assert (Hq : 0 < quotient 1 1 1 1366) by (apply quotient_pos; lra).
  exact (panel_temperature_nonnegative 1 1 1 1366 _
           (panel_result_positive 1 1 1 1366 H1 H1 Hq)).
Defined.

(** ** The guard on doubles *)

Lemma pow_2_outcome (m : F64.libm) (d : float) :
  (exists sq, F64.pow_2 m d = ([], Returns sq)) \/
  F64.pow_2 m d = ([], Raises OverflowError).
Proof.
  unfold F64.pow_2, F64.checked, F64.ret, F64.raise.
  repeat match goal with
         | |- context [if ?c then _ else _] => destruct c
         end;
    try (left; eexists; reflexivity); right; reflexivity.
Qed.

(** X19.  The guard tests [sun_distance], the division uses its square:
    for a non-zero double whose square underflows to zero the guard
    passes and both functions raise [ZeroDivisionError] at
    [1.0 / sun_distance**2]. *)
Theorem guard_misses_underflow (m : F64.libm) (d A eta theta S a e S' z sb : float) :
  F64.ne d 0 = true ->
  F64.pow_2 m d = F64.ret z -> PrimFloat.eqb z 0 = true ->
  F64.STEFAN_BOLTZMANN m = F64.ret sb ->
  F64.calc_solar_array_power_generation m d A eta theta S
  = ([], Raises ZeroDivisionError)
  /\
  F64.calc_panel_temperature m d a e S' = ([], Raises ZeroDivisionError).
Proof.
  intros Hne Hsq Hz Hsb.
  unfold F64.calc_solar_array_power_generation, F64.calc_panel_temperature.
  rewrite Hsb, Hne, Hsq. unfold F64.div. cbn [F64.bind F64.ret].
  rewrite Hz. split; reflexivity.
Qed.

Lemma guard_misses_underflow_witness :
  F64.calc_solar_array_power_generation F64.table_libm 1e-200 1 0.28 0 1366
  = ([], Raises ZeroDivisionError)
  /\
  F64.calc_panel_temperature F64.table_libm 1e-200 0.85 0.72 1366
  = ([], Raises ZeroDivisionError).
Proof.
  apply (guard_misses_underflow F64.table_libm 1e-200 1 0.28 0 1366 0.85 0.72 1366
           0 (PrimFloat.mul 5.670374419 1e-8));
    vm_compute; reflexivity.
Defined.

(** X20.  On doubles, whatever the C library computes:
    [calc_solar_array_power_generation] prints its warning and returns
    [None] exactly when [sun_distance == 0] holds (for 0.0 and for -0.0);
    otherwise it prints nothing and either returns a float or raises
    [ZeroDivisionError] or [OverflowError], and nothing else. *)
Theorem solar_outcomes_on_doubles (m : F64.libm) (d A eta theta S : float) :
  (F64.ne d 0 = false ->
   F64.calc_solar_array_power_generation m d A eta theta S
   = ([solar_warning], Returns F64.VNone))
  /\
  (F64.ne d 0 = true ->
   F64.printed (F64.calc_solar_array_power_generation m d A eta theta S) = [] /\
   ((exists p,
       F64.result (F64.calc_solar_array_power_generation m d A eta theta S)
       = Returns (F64.VFloat p)) \/
    F64.result (F64.calc_solar_array_power_generation m d A eta theta S)
    = Raises ZeroDivisionError \/
    F64.result (F64.calc_solar_array_power_generation m d A eta theta S)
    = Raises OverflowError)).
Proof.
  unfold F64.calc_solar_array_power_generation.
  split; intros Hne; rewrite Hne; [reflexivity |].
  destruct (pow_2_outcome m d) as [[sq Hsq] | Hsq]; rewrite Hsq.
  - unfold F64.div. cbn [F64.bind F64.ret].
    destruct (PrimFloat.eqb sq 0).
    + split; [reflexivity |]. right. left. reflexivity.
    + split; [reflexivity |]. left. eexists. reflexivity.
  - split; [reflexivity |]. right. right. reflexivity.
Qed.

Lemma solar_outcomes_on_doubles_witness :
  F64.calc_solar_array_power_generation F64.table_libm (-0) 1 0.28 0 1366
  = ([solar_warning], Returns F64.VNone).
Proof.
  apply (proj1 (solar_outcomes_on_doubles F64.table_libm (-0) 1 0.28 0 1366)).
  vm_compute. reflexivity.
Defined.
